(** * BudgetEditor: keyword filtering, income normalisation and summary

    A shallow embedding of [budget_editor.py] and the properties of its three
    stages: [filter_transactions], [add_employment_income] and
    [compute_summary].

    Modelling choices, all taken from the Python source:

    - a DataFrame is the list of its rows, in order; a row carries the three
      required columns [Date], [Description] and [Amount].  A blank cell
      (NaN / NaT) is [None].  The [Description] column is a text column, as
      the [.str] accessor requires.  Row labels (the index) are not part of
      a row;
    - characters are the code points 0 to 255; [case=False] folds the
      letters A-Z and the Latin-1 capitals onto their small forms;
    - [Series.str.contains(pat, case=False, na=False)] reads [pat] as a
      regular expression ([regex=True] is the default).  The engine that
      compiles and searches is a parameter, the class [Engine]: whatever
      it does, a compiled pattern is a test on texts, and a rejected
      pattern makes the call fail.  What Python's [re] does is pinned down
      on a fragment of its syntax only -- ordinary characters, [.], [^],
      [$] and top-level alternation [|] -- by the matcher of module [Re];
      an engine that agrees with this matcher on the fragment is
      [Faithful].  Nothing is assumed about patterns with quantifiers,
      classes, groups or escapes;
    - the Amount column lives in a number type given by the class
      [Number]: [float] (IEEE 754 binary64) or [int64] (what [read_csv]
      gives a column of whole numbers; its arithmetic wraps around).  The
      income is the [float] that [argparse] read.  [Series.sum()] is any
      [Summation]: the values added up in some order and grouping;
    - logging is kept as data: the two counts that [filter_transactions]
      logs are returned next to the revised ledger. *)

From Stdlib Require Import String Ascii List ZArith Lia Bool Floats.
From stdpp Require Import base list.
Import ListNotations.

Local Open Scope string_scope.
Local Open Scope list_scope.

(** ** An error monad for calls that may reject their pattern *)

Notation "'let?' x ':=' m 'in' k" :=
  (match m with Some x => k | None => None end)
  (at level 10, x name, m at level 100, k at level 200).

(** ** Text: case folding and substring search *)

Module Text.

(** [str.lower] on one code point below 256: A-Z, and the Latin-1 capitals
    192-222 without the multiplication sign 215. *)
Definition lower (c : ascii) : ascii :=
  let n := N_of_ascii c in
  if ((65 <=? n) && (n <=? 90) ||
      (192 <=? n) && (n <=? 222) && negb (n =? 215))%N
  then ascii_of_N (n + 32) else c.

(** Two characters that [re.IGNORECASE] does not tell apart. *)
Definition ci_eqb (c d : ascii) : bool := Ascii.eqb (lower c) (lower d).

Fixpoint lower_string (s : string) : string :=
  match s with
  | EmptyString => EmptyString
  | String c s' => String (lower c) (lower_string s')
  end.

(** [ci_prefix kw s]: [s] starts with [kw], letter case ignored. *)
Fixpoint ci_prefix (kw s : string) : bool :=
  match kw, s with
  | EmptyString, _ => true
  | String c kw', String d s' => ci_eqb c d && ci_prefix kw' s'
  | String _ _, EmptyString => false
  end.

(** Following the spec's words: "the description, compared
    case-insensitively, contains the keyword as a substring". *)
Fixpoint ci_substring (kw s : string) : bool :=
  ci_prefix kw s ||
  match s with
  | EmptyString => false
  | String _ s' => ci_substring kw s'
  end.

End Text.

(** ** The fragment of Python's [re] that the keywords are read in *)

Module Re.
Import Text.

Inductive atom : Type :=
| Lit (c : ascii)   (* an ordinary character *)
| AnyChar           (* [.]: any character but a newline *)
| Bol               (* [^]: the start of the text *)
| Eol.              (* [$]: the end of the text, or before a final newline *)

Definition branch : Type := list atom.

(** The alternatives of a pattern, in the order written. *)
Definition regex : Type := list branch.

(** Special characters of [re] whose syntax is outside the fragment. *)
Definition unsupported (c : ascii) : bool :=
  existsb (Ascii.eqb c)
    ["\"; "*"; "+"; "?"; "{"; "}"; "["; "]"; "("; ")"]%char.

Definition atom_of (c : ascii) : option atom :=
  if Ascii.eqb c "." then Some AnyChar
  else if Ascii.eqb c "^" then Some Bol
  else if Ascii.eqb c "$" then Some Eol
  else if unsupported c then None
  else Some (Lit c).

(** Reading a pattern of the fragment: split at each [|], read every other
    character as one atom; [None] when a character is outside the
    fragment.  The result always has at least one branch; the empty
    pattern is the single empty branch. *)
Fixpoint re_compile (pat : string) : option regex :=
  match pat with
  | EmptyString => Some [[]]
  | String c pat' =>
      if Ascii.eqb c "|" then
        let? bs := re_compile pat' in Some ([] :: bs)
      else
        let? a := atom_of c in
        let? bs := re_compile pat' in
        Some (match bs with
              | b :: bs' => (a :: b) :: bs'
              | [] => [[a]]
              end)
  end.

Definition newline : ascii := "010"%char.

(** Where [$] holds: at the end, or just before a newline that ends the
    text. *)
Definition at_end (s : string) : bool :=
  match s with
  | EmptyString => true
  | String c EmptyString => Ascii.eqb c newline
  | _ => false
  end.

(** [match_here b start s]: branch [b] matches a prefix of [s]; [start]
    tells whether [s] is the whole text (for [^]). *)
Fixpoint match_here (b : branch) (start : bool) (s : string) : bool :=
  match b with
  | [] => true
  | Lit c :: b' =>
      match s with
      | String d s' => ci_eqb c d && match_here b' false s'
      | EmptyString => false
      end
  | AnyChar :: b' =>
      match s with
      | String d s' => negb (Ascii.eqb d newline) && match_here b' false s'
      | EmptyString => false
      end
  | Bol :: b' => start && match_here b' start s
  | Eol :: b' => at_end s && match_here b' start s
  end.

(** [Pattern.search]: some branch matches at some position. *)
Fixpoint search_from (r : regex) (start : bool) (s : string) : bool :=
  existsb (fun b => match_here b start s) r ||
  match s with
  | EmptyString => false
  | String _ s' => search_from r false s'
  end.

Definition re_search (r : regex) (s : string) : bool := search_from r true s.

End Re.

Import Text Re.

(** ** The engine behind [str.contains] *)

(** [compile pat] stands for [re.compile(pat, flags=re.IGNORECASE)]: [None]
    when the pattern is rejected ([re.error]), and otherwise the test
    [fun x => pattern.search(x) is not None]. *)
Class Engine : Type := {
  compile : string -> option (string -> bool)
}.

(** The engine that knows the fragment and nothing else. *)
#[export] Instance re_fragment : Engine := {|
  compile pat := let? r := re_compile pat in Some (re_search r)
|}.

(** An engine is faithful when it reads the patterns of the fragment the
    way module [Re] does.  Python's [re] is such an engine. *)
Class Faithful (E : Engine) : Prop := {
  compile_fragment : forall pat r,
    re_compile pat = Some r ->
    exists found,
      compile pat = Some found /\ forall s, found s = re_search r s
}.

(** ** Numbers *)

(** What the code asks of a number type: a zero, addition, multiplication
    and comparison. *)
Class Number (A : Type) : Type := {
  zero : A;
  add : A -> A -> A;
  mul : A -> A -> A;
  ltb : A -> A -> bool;
  leb : A -> A -> bool
}.

(** The three literals of the 50/30/20 rule as a number type reads
    them. *)
Class Literals (A : Type) : Type := {
  lit_0_50 : A;
  lit_0_30 : A;
  lit_0_20 : A
}.

Set Warnings "-inexact-float".

(** Python's [float]: IEEE 754 binary64, round to nearest even. *)
#[export] Instance float_Number : Number float := {|
  zero := 0%float;
  add := PrimFloat.add;
  mul := PrimFloat.mul;
  ltb := PrimFloat.ltb;
  leb := PrimFloat.leb
|}.

#[export] Instance float_Literals : Literals float := {|
  lit_0_50 := 0.50%float;
  lit_0_30 := 0.30%float;
  lit_0_20 := 0.20%float
|}.

(** numpy's [int64], the type of an Amount column that holds whole numbers
    only: sums and products are taken modulo 2^64, in the range from
    -2^63 to 2^63 - 1. *)
Definition int64 : Type := Z.

Definition wrap64 (z : Z) : Z :=
  ((z + 9223372036854775808) mod 18446744073709551616
   - 9223372036854775808)%Z.

#[export] Instance int64_Number : Number int64 := {|
  zero := 0%Z;
  add := fun a b => wrap64 (a + b);
  mul := fun a b => wrap64 (a * b);
  ltb := Z.ltb;
  leb := Z.leb
|}.

(** What the signs of the totals rely on: adding amounts of one sign does
    not change the sign.  Binary64 has it (shown below), [int64] has not;
    neither associativity nor exactness is assumed of [add]. *)
Class SignLaws (A : Type) `{Number A} : Prop := {
  leb_zero_zero : leb zero zero = true;
  add_zero_zero : add zero zero = zero;
  ltb_zero_leb : forall a, ltb zero a = true -> leb zero a = true;
  ltb_leb_zero : forall a, ltb a zero = true -> leb a zero = true;
  add_nonneg : forall a b,
    leb zero a = true -> leb zero b = true -> leb zero (add a b) = true;
  add_nonpos : forall a b,
    leb a zero = true -> leb b zero = true -> leb (add a b) zero = true
}.

(** [summed xs r]: [r] is what adding up the values of [xs] gives, in some
    order and some grouping, zeros possibly added in.  A running total
    from the left is of this kind, and so is numpy's pairwise summation
    with its eight partial sums. *)
Inductive summed {A : Type} `{Number A} : list A -> A -> Prop :=
| summed_nil : summed [] zero
| summed_one (a : A) : summed [a] a
| summed_add (xs ys : list A) (x y : A) :
    summed xs x -> summed ys y -> summed (xs ++ ys) (add x y)
| summed_perm (xs ys : list A) (x : A) :
    Permutation xs ys -> summed xs x -> summed ys x.

(** [Series.sum()]: some way of adding a column up. *)
Class Summation (A : Type) `{Number A} : Type := {
  sum : list A -> A;
  sum_summed : forall xs, summed xs (sum xs)
}.

(** The running total from the left, starting from zero. *)
Definition fold_sum {A : Type} `{Number A} (xs : list A) : A :=
  fold_left add xs zero.

Lemma fold_left_summed {A : Type} `{Number A} (xs : list A) :
  forall (done : list A) (acc : A),
    summed done acc -> summed (done ++ xs) (fold_left add xs acc).
Proof.
  induction xs as [|x xs IH]; intros done acc S; cbn.
  - rewrite app_nil_r. exact S.
  - replace (done ++ x :: xs) with ((done ++ [x]) ++ xs)
      by (rewrite <- app_assoc; reflexivity).
    apply IH. apply summed_add; [exact S | apply summed_one].
Qed.

Lemma fold_sum_summed {A : Type} `{Number A} (xs : list A) :
  summed xs (fold_sum xs).
Proof. apply (fold_left_summed xs [] zero), summed_nil. Qed.

#[export] Instance fold_Summation {A : Type} `{Number A} : Summation A := {|
  sum := fold_sum;
  sum_summed := fold_sum_summed
|}.

(** Signs of IEEE 754 values in their specification form. *)
Module Binary64.
Import SpecFloat.

Definition sf_nonneg (x : spec_float) : bool :=
  match x with
  | S754_zero _ => true
  | S754_infinity s | S754_finite s _ _ => negb s
  | S754_nan => false
  end.

Definition sf_nonpos (x : spec_float) : bool :=
  match x with
  | S754_zero _ => true
  | S754_infinity s | S754_finite s _ _ => s
  | S754_nan => false
  end.

Definition sf_sign_is (s : bool) (x : spec_float) : bool :=
  match x with
  | S754_zero s' | S754_infinity s' | S754_finite s' _ _ => Bool.eqb s s'
  | S754_nan => false
  end.

End Binary64.

(** ** The data model *)

Record Transaction (A : Type) : Type := mkTransaction {
  Date : option string;
  Description : option string;
  Amount : A
}.
Arguments mkTransaction {A} _ _ _.
Arguments Date {A} _.
Arguments Description {A} _.
Arguments Amount {A} _.

Definition DataFrame (A : Type) : Type := list (Transaction A).

(** Boolean indexing [df[mask]]: the rows whose mask entry is [True]. *)
Fixpoint select {T : Type} (rows : list T) (mask : list bool) : list T :=
  match rows, mask with
  | r :: rows', m :: mask' =>
      if m then r :: select rows' mask' else select rows' mask'
  | _, _ => []
  end.

(** [col.str.contains(pat, case=False, na=False)]: the pattern is compiled
    once; a missing value gives [False]. *)
Definition str_contains {E : Engine} (col : list (option string))
    (pat : string) : option (list bool) :=
  let? found := compile pat in
  Some (map (fun x => match x with
                      | Some s => found s
                      | None => false
                      end) col).

(** [Series.any()]. *)
Definition any (mask : list bool) : bool := existsb id mask.

(** ** The three stages *)

(** What [filter_transactions] returns, with the two counts it logs. *)
Record Filtered (A : Type) : Type := mkFiltered {
  revised : DataFrame A;
  removed_centrelink : Z;
  removed_bad : Z
}.
Arguments mkFiltered {A} _ _ _.
Arguments revised {A} _.
Arguments removed_centrelink {A} _.
Arguments removed_bad {A} _.

Definition filter_transactions {E : Engine} {A : Type} (df : DataFrame A)
    (centrelink_keyword : string) (bad_keywords : list string)
  : option (Filtered A) :=
  let before := length df in
  let? mask := str_contains (map Description df) centrelink_keyword in
  let df1 := select df (map negb mask) in
  let removed1 := (Z.of_nat before - Z.of_nat (length df1))%Z in
  let? mask_bad :=
    str_contains (map Description df1) (String.concat "|" bad_keywords) in
  let before := length df1 in
  let df2 := select df1 (map negb mask_bad) in
  Some (mkFiltered df2 removed1
          (Z.of_nat before - Z.of_nat (length df2))%Z).

(** The row that [add_employment_income] builds: [Date] is [pd.NaT]. *)
Definition new_row {A : Type} (income : A) : Transaction A :=
  mkTransaction None (Some "Employment Income") income.

Definition add_employment_income {E : Engine} {A : Type} (df : DataFrame A)
    (income : A) : option (DataFrame A) :=
  let? found := str_contains (map Description df) "Employment Income" in
  if negb (any found) then Some (new_row income :: df) else Some df.

Record Recommended (A : Type) : Type := mkRecommended {
  needs : A;
  wants : A;
  savings : A
}.
Arguments mkRecommended {A} _ _ _.
Arguments needs {A} _.
Arguments wants {A} _.
Arguments savings {A} _.

(** The totals have the type of the Amount column, the rest the type of
    the income. *)
Record Summary (A I : Type) : Type := mkSummary {
  full_time_income : I;
  total_income : A;
  total_expenses : A;
  balance : A;
  recommended : Recommended I
}.
Arguments mkSummary {A I} _ _ _ _ _.
Arguments full_time_income {A I} _.
Arguments total_income {A I} _.
Arguments total_expenses {A I} _.
Arguments balance {A I} _.
Arguments recommended {A I} _.

Definition compute_summary {A I : Type} {NA : Number A} {SA : Summation A}
    {NI : Number I} {LI : Literals I}
    (df : DataFrame A) (full_income : I) : Summary A I :=
  let amount := map Amount df in
  let total_income :=
    sum (map Amount (select df (map (fun a => ltb zero a) amount))) in
  let total_expenses :=
    sum (map Amount (select df (map (fun a => ltb a zero) amount))) in
  let balance := add total_income total_expenses in
  let needs := mul full_income lit_0_50 in
  let wants := mul full_income lit_0_30 in
  let savings := mul full_income lit_0_20 in
  mkSummary full_income total_income total_expenses balance
    (mkRecommended needs wants savings).

(** [main] once the arguments are parsed and the file is loaded: the final
    ledger (what is written out) and the summary (what is printed).  The
    income row goes into the Amount column, so here the column has the
    type of the income.  Writing the file, which can end the run with
    status 1, is not part of it. *)
Definition main {E : Engine} {A : Type} {N : Number A} {S : Summation A}
    {L : Literals A} (df : DataFrame A)
    (centrelink_keyword : string) (bad_keywords : list string) (income : A)
  : option (DataFrame A * Summary A A) :=
  let? df_filtered := filter_transactions df centrelink_keyword bad_keywords in
  let? df_final := add_employment_income (revised df_filtered) income in
  Some (df_final, compute_summary df_final income).

(** ** Vocabulary of the specification *)

(** A keyword none of whose characters is special to [re]: the pattern it
    gives is the keyword itself, letter by letter. *)
Definition plain_char (c : ascii) : bool :=
  negb (existsb (Ascii.eqb c) ["."; "^"; "$"; "|"]%char || unsupported c).

Fixpoint plain (kw : string) : bool :=
  match kw with
  | EmptyString => true
  | String c kw' => plain_char c && plain kw'
  end.

(** The branch that spells a keyword. *)
Fixpoint lits (kw : string) : branch :=
  match kw with
  | EmptyString => []
  | String c kw' => Lit c :: lits kw'
  end.

(** "The description case-insensitively contains the keyword": an absent
    description contains nothing. *)
Definition mentions {A : Type} (kw : string) (t : Transaction A) : bool :=
  match Description t with
  | Some d => ci_substring kw d
  | None => false
  end.

Definition mentions_any {A : Type} (kws : list string) (t : Transaction A)
  : bool :=
  existsb (fun kw => mentions kw t) kws.

(** What one [str.contains] call answers for one row, given the test of
    the compiled pattern; a row is kept by a pass when the answer is
    [False]. *)
Definition hit {A : Type} (found : string -> bool) (t : Transaction A)
  : bool :=
  match Description t with
  | Some d => found d
  | None => false
  end.

Definition kept {A : Type} (found : string -> bool) (t : Transaction A)
  : bool :=
  negb (hit found t).

(** An "employment income" entry, and the entries of a ledger. *)
Definition is_income_entry {A : Type} (t : Transaction A) : bool :=
  mentions "employment income" t.


(** The rows whose description is absent. *)
Definition is_absent {A : Type} (t : Transaction A) : bool :=
  match Description t with
  | Some _ => false
  | None => true
  end.

Definition absent_rows {A : Type} (df : DataFrame A) : DataFrame A :=
  List.filter is_absent df.

(** ** The command line and the loader *)

(** [str.isspace] on one code point below 256. *)
Definition is_space (c : ascii) : bool :=
  let n := N_of_ascii c in
  ((9 <=? n) && (n <=? 13) || (28 <=? n) && (n <=? 32) ||
   (n =? 133) || (n =? 160))%N.

Fixpoint lstrip (s : string) : string :=
  match s with
  | EmptyString => EmptyString
  | String c s' => if is_space c then lstrip s' else s
  end.

Fixpoint rstrip (s : string) : string :=
  match s with
  | EmptyString => EmptyString
  | String c s' =>
      match rstrip s' with
      | EmptyString => if is_space c then EmptyString else String c EmptyString
      | r => String c r
      end
  end.

(** [word.strip()]. *)
Definition str_strip (s : string) : string := rstrip (lstrip s).

(** [s.split(sep)] for a separator of one character: every occurrence
    separates, empty items are kept, and the empty string gives one empty
    item. *)
Fixpoint str_split (sep : ascii) (s : string) : list string :=
  match s with
  | EmptyString => [EmptyString]
  | String c s' =>
      if Ascii.eqb c sep then EmptyString :: str_split sep s'
      else match str_split sep s' with
           | w :: ws => String c w :: ws
           | [] => [String c EmptyString]
           end
  end.

(** The list comprehension of [main]:
    [[word.strip() for word in args.bad_keywords.split(",")]]. *)
Definition bad_keywords_of (arg : string) : list string :=
  map str_strip (str_split "," arg).

Module Cli.

(** The namespace that [parse_args] returns. *)
Record Args (A : Type) : Type := mkArgs {
  input : string;
  output : string;
  income : A;
  bad_keywords : string;
  centrelink_keyword : string
}.
Arguments mkArgs {A} _ _ _ _ _.
Arguments input {A} _.
Arguments output {A} _.
Arguments income {A} _.
Arguments bad_keywords {A} _.
Arguments centrelink_keyword {A} _.


(** [main] from the parsed arguments and the loaded frame on, as far as
    the summary: the keyword list is split and stripped, then the three
    stages run.  As in [main] above, writing the file is left out. *)
Definition main {E : Engine} {A : Type} {N : Number A} {S : Summation A}
    {L : Literals A} (args : Args A)
    (df : DataFrame A) : option (DataFrame A * Summary A A) :=
  main df (centrelink_keyword args) (bad_keywords_of (bad_keywords args))
    (income args).

End Cli.

(** How a call that may end the program comes back. *)
Inductive outcome (T : Type) : Type :=
| Returned (x : T)
| Exited (status : Z) (log : list string).
Arguments Returned {T} _.
Arguments Exited {T} _ _.

(** What [pd.read_csv] hands over: the column names and the records. *)
Record CsvFrame (R : Type) : Type := mkCsvFrame {
  columns : list string;
  records : list R
}.
Arguments mkCsvFrame {R} _ _.
Arguments columns {R} _.
Arguments records {R} _.

Definition required_columns : list string :=
  ["Date"; "Description"; "Amount"].

(** The loop over the required columns: the first one the frame lacks. *)
Fixpoint first_missing (required cols : list string) : option string :=
  match required with
  | [] => None
  | col :: rest =>
      if existsb (String.eqb col) cols then first_missing rest cols
      else Some col
  end.

(** [load_transactions], given what [pd.read_csv] did: an exception with
    its text, or a frame.  [sys.exit(1)] inside the [try] is a
    [SystemExit], which [except Exception] does not catch: a missing
    column logs one line and ends the program. *)
Definition load_transactions {R : Type} (input_path : string)
    (read_csv : string + CsvFrame R) : outcome (CsvFrame R) :=
  match read_csv with
  | inl e =>
      Exited 1 [("Failed to read CSV file " ++ input_path ++ ": " ++ e)%string]
  | inr df =>
      match first_missing required_columns (columns df) with
      | Some col => Exited 1 [("Missing required column: " ++ col)%string]
      | None => Returned df
      end
  end.

(** Texts made of white space only; white space at either end. *)
Fixpoint all_space (s : string) : bool :=
  match s with
  | EmptyString => true
  | String c s' => is_space c && all_space s'
  end.

Definition starts_with_space (s : string) : bool :=
  match s with
  | EmptyString => false
  | String c _ => is_space c
  end.

Fixpoint ends_with_space (s : string) : bool :=
  match s with
  | EmptyString => false
  | String c EmptyString => is_space c
  | String _ s' => ends_with_space s'
  end.

Fixpoint has_char (c : ascii) (s : string) : bool :=
  match s with
  | EmptyString => false
  | String d s' => Ascii.eqb d c || has_char c s'
  end.

Fixpoint count_char (c : ascii) (s : string) : nat :=
  match s with
  | EmptyString => 0
  | String d s' => (if Ascii.eqb d c then 1 else 0) + count_char c s'
  end.

(** ** Sample ledgers *)

Definition tx (date description : string) (amount : float)
  : Transaction float :=
  mkTransaction (Some date) (Some description) amount.

(** Scenario A of the specification. *)
Definition scenario_A : DataFrame float :=
  [ tx "2024-01-01" "Centrelink Payment" 300;
    tx "2024-01-02" "Coffee - fraud charge" (-10);
    tx "2024-01-03" "Groceries" (-50) ]%float.

(** Scenario B: an income row is already there; its date cell is blank. *)
Definition scenario_B : DataFrame float :=
  [ mkTransaction None (Some "Employment Income") 3500%float ].

(** A row with no description between two that have one. *)
Definition with_blank : DataFrame float :=
  [ tx "2024-02-01" "Centrelink Payment" 300;
    mkTransaction (Some "2024-02-02") None (-25);
    tx "2024-02-03" "Groceries" (-50) ]%float.

(** A keyword with a character that [re] reads as an anchor. *)
Definition dollar_ledger : DataFrame float :=
  [ tx "2024-01-05" "US$ transfer" (-20)%float ].

Definition groceries : DataFrame float :=
  [ tx "2024-01-03" "Groceries" (-50)%float ].


(** ** The allocations, checked over whole cents *)



Module CentCheck.
Import Uint63.



End CentCheck.

(** ** Worked examples *)

Example lower_A : lower "A" = "a"%char.
Proof. reflexivity. Qed.

Example search_plain :
  (let? r := re_compile "fraud" in
   Some (re_search r "Coffee - FRAUD charge")) = Some true.
Proof. reflexivity. Qed.

Example search_alt :
  (let? r := re_compile "bad|fraud|error" in
   Some (re_search r "Groceries")) = Some false.
Proof. reflexivity. Qed.

(** Matching is by substring, not by word. *)
Example search_badminton :
  (let? r := re_compile "bad|fraud|error" in
   Some (re_search r "Badminton club")) = Some true.
Proof. reflexivity. Qed.

Example search_empty :
  (let? r := re_compile "" in Some (re_search r "Groceries")) = Some true.
Proof. reflexivity. Qed.

Example search_dollar :
  (let? r := re_compile "us$" in Some (re_search r "US$ transfer")) =
  Some false.
Proof. reflexivity. Qed.

Example compile_group : re_compile "fee (late)" = None.
Proof. reflexivity. Qed.

Example scenario_A_run :
  main scenario_A "Centrelink" ["bad"; "fraud"; "error"] 4000%float =
  Some ([ new_row 4000%float; tx "2024-01-03" "Groceries" (-50)%float ],
        mkSummary 4000 4000 (-50) 3950 (mkRecommended 2000 1200 800))%float.
Proof. vm_compute. reflexivity. Qed.

Example scenario_A_counts :
  filter_transactions scenario_A "Centrelink" ["bad"; "fraud"; "error"] =
  Some (mkFiltered [ tx "2024-01-03" "Groceries" (-50)%float ] 1 1).
Proof. vm_compute. reflexivity. Qed.

(** ** Plain keywords: the pattern is the keyword *)

Section PlainKeywords.

Lemma plain_char_inv c :
  plain_char c = true ->
  Ascii.eqb c "." = false /\ Ascii.eqb c "^" = false /\
  Ascii.eqb c "$" = false /\ Ascii.eqb c "|" = false /\
  unsupported c = false.
Proof.
  unfold plain_char. intros H. apply negb_true_iff in H.
  apply orb_false_elim in H as [H Hu]. cbn [existsb] in H.
  repeat (apply orb_false_elim in H as [? H]). auto.
Qed.

Lemma atom_of_plain c : plain_char c = true -> atom_of c = Some (Lit c).
Proof.
  intros H. apply plain_char_inv in H as (H1 & H2 & H3 & _ & H5).
  unfold atom_of. rewrite H1, H2, H3, H5. reflexivity.
Qed.

Lemma plain_char_not_bar c : plain_char c = true -> Ascii.eqb c "|" = false.
Proof. intros H. apply plain_char_inv in H. tauto. Qed.

Lemma re_compile_nonempty pat r : re_compile pat = Some r -> r <> [].
Proof.
  destruct pat as [|c pat]; cbn.
  - intros [= <-]. discriminate.
  - destruct (Ascii.eqb c "|").
    + destruct (re_compile pat); intros [= <-]. discriminate.
    + destruct (atom_of c); [ | discriminate].
      destruct (re_compile pat) as [[|b bs]|]; intros [= <-]; discriminate.
Qed.

(** A plain keyword followed by more alternatives. *)
Lemma re_compile_plain_bar kw rest :
  plain kw = true ->
  re_compile (kw ++ String "|" rest) =
  let? bs := re_compile rest in Some (lits kw :: bs).
Proof.
  induction kw as [|c kw IH]; cbn [plain append lits]; intros Hp.
  - reflexivity.
  - apply andb_prop in Hp as [Hc Hk].
    cbn [re_compile]. rewrite (plain_char_not_bar _ Hc), (atom_of_plain _ Hc).
    rewrite (IH Hk). destruct (re_compile rest); reflexivity.
Qed.

Lemma re_compile_plain kw : plain kw = true -> re_compile kw = Some [lits kw].
Proof.
  induction kw as [|c kw IH]; cbn [plain lits]; intros Hp.
  - reflexivity.
  - apply andb_prop in Hp as [Hc Hk].
    cbn [re_compile]. rewrite (plain_char_not_bar _ Hc), (atom_of_plain _ Hc).
    rewrite (IH Hk). reflexivity.
Qed.

(** ["|".join(kws)] for plain keywords: one branch per keyword -- and, for
    the empty list, the empty pattern with its single empty branch. *)
Lemma re_compile_join kws :
  forallb plain kws = true ->
  re_compile (String.concat "|" kws) =
  Some (match kws with [] => [[]] | _ => map lits kws end).
Proof.
  induction kws as [|kw kws IH]; cbn [forallb]; intros Hp.
  - reflexivity.
  - apply andb_prop in Hp as [Hk Hks].
    destruct kws as [|kw' kws].
    + cbn. apply re_compile_plain, Hk.
    + change (String.concat "|" (kw :: kw' :: kws))
        with (kw ++ String "|" (String.concat "|" (kw' :: kws)))%string.
      rewrite (re_compile_plain_bar _ _ Hk), (IH Hks). reflexivity.
Qed.

Lemma match_here_lits kw start s :
  match_here (lits kw) start s = ci_prefix kw s.
Proof.
  revert start s. induction kw as [|c kw IH]; intros start s; cbn.
  - reflexivity.
  - destruct s as [|d s]; [reflexivity | ]. rewrite IH. reflexivity.
Qed.

Lemma existsb_orb {T : Type} (f g : T -> bool) l :
  existsb (fun x => f x || g x) l = existsb f l || existsb g l.
Proof.
  induction l as [|x l IH]; cbn; [reflexivity | ].
  rewrite IH. destruct (f x), (g x), (existsb f l); reflexivity.
Qed.

Lemma existsb_pointwise {T : Type} (f g : T -> bool) l :
  (forall x, f x = g x) -> existsb f l = existsb g l.
Proof.
  intros E. induction l as [|x l IH]; cbn; [reflexivity | ].
  rewrite E, IH. reflexivity.
Qed.

Lemma existsb_map_ext {T U : Type} (f : U -> bool) (g : T -> U)
    (h : T -> bool) l :
  (forall x, f (g x) = h x) -> existsb f (map g l) = existsb h l.
Proof.
  intros E. induction l as [|x l IH]; cbn; [reflexivity | ].
  rewrite E, IH. reflexivity.
Qed.

(** Searching for the alternation of plain keywords is looking for one of
    them as a substring. *)
Lemma search_from_lits kws start s :
  search_from (map lits kws) start s =
  existsb (fun kw => ci_substring kw s) kws.
Proof.
  revert start. induction s as [|d s IH]; intros start.
  - cbn [search_from]. rewrite orb_false_r.
    apply existsb_map_ext. intros kw. rewrite match_here_lits. cbn.
    rewrite orb_false_r. reflexivity.
  - cbn [search_from]. rewrite IH.
    cbn [ci_substring]. rewrite existsb_orb. f_equal.
    apply existsb_map_ext. intros kw. apply match_here_lits.
Qed.

Lemma re_search_plain kw s : re_search [lits kw] s = ci_substring kw s.
Proof.
  unfold re_search. rewrite (search_from_lits [kw]). cbn.
  apply orb_false_r.
Qed.

(** The empty pattern is found in every text. *)
Lemma re_search_empty s : re_search [[]] s = true.
Proof. destruct s; reflexivity. Qed.

End PlainKeywords.

(** ** The filter engine as two list filters *)

Section FilterEngine.

Context {E : Engine} {A : Type}.
Implicit Types (df : DataFrame A) (t : Transaction A).
Implicit Types (found : string -> bool).

Lemma select_map {T : Type} (p : T -> bool) (l : list T) :
  select l (map p l) = List.filter p l.
Proof.
  induction l as [|x l IH]; cbn; [reflexivity | ].
  rewrite IH. reflexivity.
Qed.

Lemma str_contains_hit df pat found :
  compile pat = Some found ->
  str_contains (map Description df) pat = Some (map (hit found) df).
Proof.
  intros C. unfold str_contains. rewrite C, map_map. reflexivity.
Qed.

Lemma str_contains_None df pat :
  compile pat = None -> str_contains (map Description df) pat = None.
Proof. intros C. unfold str_contains. rewrite C. reflexivity. Qed.

(** One pass: mask, negate, index. *)
Lemma select_kept df found :
  select df (map negb (map (hit found) df)) = List.filter (kept found) df.
Proof. rewrite map_map. apply select_map. Qed.

(** [filter_transactions] in closed form. *)
Lemma filter_transactions_eq df kw bad :
  filter_transactions df kw bad =
  let? f1 := compile kw in
  let? f2 := compile (String.concat "|" bad) in
  let df1 := List.filter (kept f1) df in
  let df2 := List.filter (kept f2) df1 in
  Some (mkFiltered df2
          (Z.of_nat (length df) - Z.of_nat (length df1))
          (Z.of_nat (length df1) - Z.of_nat (length df2))).
Proof.
  unfold filter_transactions.
  destruct (compile kw) as [f1|] eqn:C1.
  - rewrite (str_contains_hit _ _ _ C1), select_kept.
    destruct (compile (String.concat "|" bad)) as [f2|] eqn:C2.
    + rewrite (str_contains_hit _ _ _ C2), select_kept. reflexivity.
    + rewrite (str_contains_None _ _ C2). reflexivity.
  - rewrite (str_contains_None _ _ C1). reflexivity.
Qed.

Lemma filter_transactions_Some df kw bad res :
  filter_transactions df kw bad = Some res ->
  exists f1 f2,
    compile kw = Some f1 /\
    compile (String.concat "|" bad) = Some f2 /\
    res = mkFiltered
            (List.filter (kept f2) (List.filter (kept f1) df))
            (Z.of_nat (length df) -
             Z.of_nat (length (List.filter (kept f1) df)))
            (Z.of_nat (length (List.filter (kept f1) df)) -
             Z.of_nat (length (List.filter (kept f2)
                                 (List.filter (kept f1) df)))).
Proof.
  rewrite filter_transactions_eq.
  destruct (compile kw) as [f1|]; [ | discriminate].
  destruct (compile (String.concat "|" bad)) as [f2|]; [ | discriminate].
  cbn. intros [= <-]. exists f1, f2. auto.
Qed.

(** [filter_transactions] answers exactly when both of its patterns
    compile; the rows play no part in that. *)
Lemma filter_transactions_defined df kw bad :
  is_Some (filter_transactions df kw bad) <->
  is_Some (compile kw) /\ is_Some (compile (String.concat "|" bad)).
Proof.
  rewrite filter_transactions_eq.
  destruct (compile kw) as [f1|],
           (compile (String.concat "|" bad)) as [f2|]; cbn;
    split; try (intros [[x Hx] [y Hy]]); try (intros [x Hx]);
    try discriminate; eauto.
Qed.

(** Facts about [List.filter] used below. *)

Lemma filter_all {T : Type} (p : T -> bool) (l : list T) :
  (forall x, In x l -> p x = true) -> List.filter p l = l.
Proof.
  induction l as [|x l IH]; cbn; intros H; [reflexivity | ].
  rewrite (H x) by auto. f_equal. apply IH. auto.
Qed.

Lemma filter_sublist {T : Type} (p : T -> bool) (l : list T) :
  List.filter p l `sublist_of` l.
Proof.
  induction l as [|x l IH]; cbn.
  - constructor.
  - destruct (p x); constructor; exact IH.
Qed.

Lemma filter_length_le {T : Type} (p : T -> bool) (l : list T) :
  (length (List.filter p l) <= length l)%nat.
Proof. apply sublist_length, filter_sublist. Qed.

Lemma filter_implied {T : Type} (p q : T -> bool) (l : list T) :
  (forall x, q x = true -> p x = true) ->
  List.filter q (List.filter p l) = List.filter q l.
Proof.
  intros H. induction l as [|x l IH]; cbn; [reflexivity | ].
  destruct (p x) eqn:Ep; cbn.
  - rewrite IH. reflexivity.
  - destruct (q x) eqn:Eq; [ | exact IH].
    rewrite (H x Eq) in Ep. discriminate.
Qed.

Lemma is_absent_kept found t : is_absent t = true -> kept found t = true.
Proof.
  unfold is_absent, kept, hit. destruct (Description t); [discriminate | ].
  reflexivity.
Qed.

Lemma hit_ext found found' t :
  (forall s, found s = found' s) -> hit found t = hit found' t.
Proof. intros H. unfold hit. destruct (Description t); auto. Qed.

Lemma kept_ext found found' t :
  (forall s, found s = found' s) -> kept found t = kept found' t.
Proof. intros H. unfold kept. rewrite (hit_ext _ _ _ H). reflexivity. Qed.

End FilterEngine.

(** ** What a faithful engine does with plain keywords *)

Section FaithfulEngine.

Context {E : Engine} {F : Faithful E} {A : Type}.
Implicit Types (df : DataFrame A) (t : Transaction A).

Lemma compile_plain kw :
  plain kw = true ->
  exists found,
    compile kw = Some found /\ forall s, found s = ci_substring kw s.
Proof.
  intros Hp.
  destruct (compile_fragment kw _ (re_compile_plain _ Hp)) as (f & C & Hf).
  exists f. split; [exact C | ]. intros s.
  rewrite Hf. apply re_search_plain.
Qed.

(** The joined pattern of plain keywords looks for one of them -- and is
    found everywhere when there is no keyword at all. *)
Lemma compile_join bad :
  forallb plain bad = true ->
  exists found,
    compile (String.concat "|" bad) = Some found /\
    forall s, found s =
      match bad with
      | [] => true
      | _ :: _ => existsb (fun kw => ci_substring kw s) bad
      end.
Proof.
  intros Hp.
  destruct (compile_fragment _ _ (re_compile_join _ Hp)) as (f & C & Hf).
  exists f. split; [exact C | ]. intros s. rewrite Hf.
  destruct bad as [|kw bad]; [apply re_search_empty | ].
  apply search_from_lits.
Qed.

(** A faithful engine gives the answers of the fragment where the fragment
    has one. *)
Lemma filter_transactions_fragment df kw bad res :
  filter_transactions (E := re_fragment) df kw bad = Some res ->
  filter_transactions df kw bad = Some res.
Proof.
  intros H. apply filter_transactions_Some in H as (f1 & f2 & C1 & C2 & ->).
  cbn in C1, C2.
  destruct (re_compile kw) as [r1|] eqn:R1; [ | discriminate].
  destruct (re_compile (String.concat "|" bad)) as [r2|] eqn:R2;
    [ | discriminate].
  injection C1 as <-. injection C2 as <-.
  destruct (compile_fragment _ _ R1) as (g1 & D1 & H1).
  destruct (compile_fragment _ _ R2) as (g2 & D2 & H2).
  rewrite filter_transactions_eq, D1, D2. cbn zeta.
  rewrite (List.filter_ext (kept g1) (kept (re_search r1)))
    by (intros t; apply kept_ext, H1).
  rewrite (List.filter_ext (kept g2) (kept (re_search r2)))
    by (intros t; apply kept_ext, H2).
  reflexivity.
Qed.

End FaithfulEngine.

#[export] Instance re_fragment_Faithful : Faithful re_fragment.
Proof.
  split. intros pat r R. exists (re_search r). cbn. rewrite R. auto.
Qed.

(** ** Properties of the filter engine *)

Section FilterProperties.

Context {E : Engine} {F : Faithful E} {A : Type}.
Implicit Types (df : DataFrame A) (t : Transaction A).

Lemma mentions_any_Some bad t d :
  Description t = Some d ->
  mentions_any bad t = existsb (fun kw => ci_substring kw d) bad.
Proof.
  intros D. unfold mentions_any, mentions. rewrite D. reflexivity.
Qed.

Lemma mentions_any_None bad t :
  Description t = None -> mentions_any bad t = false.
Proof.
  intros D. unfold mentions_any, mentions. rewrite D.
  induction bad as [|kw bad IH]; [reflexivity | exact IH].
Qed.

(** A row that mentions a bad keyword is hit by the joined pattern. *)
Lemma hit_join bad found t :
  (forall s, found s =
     match bad with
     | [] => true
     | _ :: _ => existsb (fun kw => ci_substring kw s) bad
     end) ->
  mentions_any bad t = true -> hit found t = true.
Proof.
  intros Hf. destruct bad as [|kw bad]; [discriminate | ].
  unfold hit. destruct (Description t) as [d|] eqn:D.
  - rewrite (mentions_any_Some _ _ _ D), Hf. trivial.
  - rewrite (mentions_any_None _ _ D). trivial.
Qed.

Lemma hit_plain kw found t :
  (forall s, found s = ci_substring kw s) -> hit found t = mentions kw t.
Proof.
  intros Hf. unfold hit, mentions. destruct (Description t); auto.
Qed.

(** Filter correctness where no keyword has a character special to [re]:
    what remains mentions no keyword, and what mentions one is gone. *)
Lemma filter_transactions_plain df kw bad :
  plain kw = true -> forallb plain bad = true ->
  exists res,
    filter_transactions df kw bad = Some res /\
    (forall t, In t (revised res) ->
       In t df /\ mentions kw t = false /\ mentions_any bad t = false) /\
    (forall t, mentions kw t = true \/ mentions_any bad t = true ->
       ~ In t (revised res)).
Proof.
  intros Hk Hb. rewrite filter_transactions_eq.
  destruct (compile_plain kw Hk) as (f1 & C1 & H1).
  destruct (compile_join bad Hb) as (f2 & C2 & H2).
  rewrite C1, C2. cbn zeta.
  eexists. split; [reflexivity | ]. cbn [revised].
  assert (forall t,
    In t (List.filter (kept f2) (List.filter (kept f1) df)) ->
    In t df /\ mentions kw t = false /\ mentions_any bad t = false) as K.
  { intros t Ht. apply filter_In in Ht as [Ht K2].
    apply filter_In in Ht as [Ht K1]. split; [exact Ht | ]. split.
    - unfold kept in K1. rewrite (hit_plain kw) in K1 by exact H1.
      apply negb_true_iff, K1.
    - unfold kept in K2. apply negb_true_iff in K2.
      destruct (mentions_any bad t) eqn:M; [ | reflexivity].
      rewrite (hit_join bad f2 t H2 M) in K2. discriminate. }
  split; [exact K | ].
  intros t Hm Ht. destruct (K t Ht) as (_ & N1 & N2).
  destruct Hm as [Hm|Hm]; congruence.
Qed.

(** X14. With no bad keyword at all the joined pattern is empty, and the
    empty pattern is found in every description: only the rows without a
    description survive the second pass. *)
Lemma filter_transactions_no_bad_keywords df kw res :
  filter_transactions df kw [] = Some res ->
  revised res = absent_rows df.
Proof.
  intros H. apply filter_transactions_Some in H as (f1 & f2 & _ & C2 & ->).
  destruct (compile_join [] eq_refl) as (g & D & Hg).
  rewrite D in C2. injection C2 as <-. cbn [revised]. unfold absent_rows.
  rewrite (List.filter_ext (kept g) is_absent).
  - apply filter_implied. intros t. apply is_absent_kept.
  - intros t. unfold kept, hit, is_absent.
    destruct (Description t); [ | reflexivity].
    rewrite Hg. reflexivity.
Qed.

End FilterProperties.

(** ** Case-insensitive containment, in the specification's words *)

Section Containment.

Lemma lower_idempotent c : lower (lower c) = lower c.
Proof. destruct c as [[] [] [] [] [] [] [] []]; reflexivity. Qed.

Lemma ci_eqb_lower_l c d : ci_eqb (lower c) d = ci_eqb c d.
Proof. unfold ci_eqb. rewrite lower_idempotent. reflexivity. Qed.

Lemma ci_prefix_lower kw s : ci_prefix (lower_string kw) s = ci_prefix kw s.
Proof.
  revert s. induction kw as [|c kw IH]; intros s; cbn; [reflexivity | ].
  destruct s as [|d s]; [reflexivity | ].
  rewrite ci_eqb_lower_l, IH. reflexivity.
Qed.

(** The letter case of the keyword plays no part. *)
Lemma ci_substring_lower kw s :
  ci_substring (lower_string kw) s = ci_substring kw s.
Proof.
  induction s as [|d s IH]; cbn; rewrite ci_prefix_lower; [reflexivity | ].
  rewrite IH. reflexivity.
Qed.

Lemma ci_prefix_spec kw s :
  ci_prefix kw s = true <->
  exists post, lower_string s = (lower_string kw ++ post)%string.
Proof.
  revert s. induction kw as [|c kw IH]; intros s; cbn.
  - split; [intros _; exists (lower_string s); reflexivity | reflexivity].
  - destruct s as [|d s]; cbn.
    + split; [discriminate | intros [post E]; discriminate].
    + rewrite andb_true_iff, IH. unfold ci_eqb. rewrite Ascii.eqb_eq.
      split.
      * intros [E [post Ep]]. exists post. rewrite E, Ep. reflexivity.
      * intros [post [= E Ep]]. split; [congruence | exists post; exact Ep].
Qed.

(** [ci_substring kw s] says that, once both are folded to small letters,
    the keyword occurs somewhere inside the text. *)
Lemma ci_substring_spec kw s :
  ci_substring kw s = true <->
  exists pre post,
    lower_string s = (pre ++ lower_string kw ++ post)%string.
Proof.
  induction s as [|d s IH]; cbn [ci_substring];
    rewrite orb_true_iff, ci_prefix_spec.
  - split.
    + intros [[post E]|H]; [ | discriminate]. exists EmptyString, post. exact E.
    + intros (pre & post & E). left. destruct pre; [ | discriminate].
      exists post. exact E.
  - rewrite IH. split.
    + intros [[post E]|(pre & post & E)].
      * exists EmptyString, post. exact E.
      * exists (String (lower d) pre), post. cbn. rewrite E. reflexivity.
    + intros (pre & post & E). destruct pre as [|x pre].
      * left. exists post. exact E.
      * right. cbn in E. injection E as _ E. exists pre, post. exact E.
Qed.

End Containment.

(** ** The income normaliser in closed form *)

Section IncomeNormalizer.

Context {E : Engine} {F : Faithful E} {A : Type}.
Implicit Types (df : DataFrame A) (t : Transaction A) (income : A).

Lemma any_map {T : Type} (f : T -> bool) (l : list T) :
  any (map f l) = existsb f l.
Proof.
  unfold any. induction l as [|x l IH]; cbn; [reflexivity | ].
  rewrite IH. reflexivity.
Qed.

(** The scan of [add_employment_income] looks for exactly the entries the
    specification calls "employment income" entries. *)
Lemma hit_income_entry found t :
  (forall s, found s = ci_substring "Employment Income" s) ->
  hit found t = is_income_entry t.
Proof.
  intros Hf. rewrite (hit_plain "Employment Income") by exact Hf.
  unfold is_income_entry, mentions.
  destruct (Description t) as [d|]; [ | reflexivity].
  rewrite <- (ci_substring_lower "Employment Income"). reflexivity.
Qed.

Lemma add_employment_income_eq df income :
  add_employment_income df income =
  Some (if existsb is_income_entry df then df else new_row income :: df).
Proof.
  unfold add_employment_income.
  destruct (compile_plain "Employment Income" eq_refl) as (f & C & Hf).
  rewrite (str_contains_hit df _ f C), any_map.
  rewrite (existsb_pointwise _ _ df (fun t => hit_income_entry f t Hf)).
  destruct (existsb is_income_entry df); reflexivity.
Qed.

Lemma new_row_is_income_entry income :
  is_income_entry (new_row income) = true.
Proof. reflexivity. Qed.


End IncomeNormalizer.

(** ** Signs under binary64 addition *)

Module Binary64Facts.
Import SpecFloat Binary64.

Lemma SFleb_zero_l x : SFleb (S754_zero false) x = sf_nonneg x.
Proof. destruct x as [[]|[]| |[] m e]; reflexivity. Qed.

Lemma SFleb_zero_r x : SFleb x (S754_zero false) = sf_nonpos x.
Proof. destruct x as [[]|[]| |[] m e]; reflexivity. Qed.

Lemma shr_1_nonneg mrs : (0 <= shr_m mrs -> 0 <= shr_m (shr_1 mrs))%Z.
Proof.
  destruct mrs as [m r s]; simpl.
  destruct m as [|[p|p|]|p]; simpl; lia.
Qed.

Lemma iter_shr_1_nonneg p :
  forall mrs, (0 <= shr_m mrs -> 0 <= shr_m (iter_pos shr_1 p mrs))%Z.
Proof.
  induction p as [p IH|p IH|]; simpl; intros mrs H.
  - apply IH, IH, shr_1_nonneg, H.
  - apply IH, IH, H.
  - apply shr_1_nonneg, H.
Qed.

Lemma shr_record_of_loc_m m l : shr_m (shr_record_of_loc m l) = m.
Proof. destruct l as [|[]]; reflexivity. Qed.

Lemma shr_fexp_nonneg prec emax m e l :
  (0 <= m -> 0 <= shr_m (fst (shr_fexp prec emax m e l)))%Z.
Proof.
  intros H. unfold shr_fexp, shr.
  destruct (fexp prec emax (Zdigits2 m + e) - e)%Z; simpl;
    try (rewrite shr_record_of_loc_m; exact H).
  apply iter_shr_1_nonneg. rewrite shr_record_of_loc_m; exact H.
Qed.

Lemma round_nearest_even_nonneg m l :
  (0 <= m -> 0 <= round_nearest_even m l)%Z.
Proof.
  intros H. destruct l as [|[]]; simpl; try lia.
  destruct (Z.even m); lia.
Qed.

(** Rounding keeps the sign it is given and never produces a NaN. *)
Lemma binary_round_aux_sign prec emax s m e l :
  (0 <= m)%Z -> sf_sign_is s (binary_round_aux prec emax s m e l) = true.
Proof.
  intros H. unfold binary_round_aux.
  pose proof (shr_fexp_nonneg prec emax m e l H) as H1.
  destruct (shr_fexp prec emax m e l) as [mrs1 e1]; simpl in H1.
  pose proof (shr_fexp_nonneg prec emax _ e1 loc_Exact
                (round_nearest_even_nonneg _ (loc_of_shr_record mrs1) H1))
    as H2.
  destruct (shr_fexp prec emax _ e1 loc_Exact) as [mrs2 e2]; simpl in H2.
  destruct (shr_m mrs2) as [|p|p]; simpl.
  - apply Bool.eqb_reflx.
  - destruct (e2 <=? emax - prec)%Z; simpl; apply Bool.eqb_reflx.
  - lia.
Qed.

Lemma binary_round_sign prec emax s m e :
  sf_sign_is s (binary_round prec emax s m e) = true.
Proof.
  unfold binary_round.
  destruct (shl_align m e _) as [mz ez].
  apply binary_round_aux_sign. lia.
Qed.

Lemma SFadd_nonneg prec emax x y :
  sf_nonneg x = true -> sf_nonneg y = true ->
  sf_nonneg (SFadd prec emax x y) = true.
Proof.
  destruct x as [sx|sx| |sx mx ex], y as [sy|sy| |sy my ey]; simpl;
    try discriminate; try (destruct sx, sy; simpl; congruence).
  destruct sx, sy; simpl; try discriminate. intros _ _.
  pose proof (binary_round_sign prec emax false
    (fst (shl_align mx ex (Z.min ex ey)) + fst (shl_align my ey (Z.min ex ey)))
    (Z.min ex ey)) as H.
  destruct (binary_round _ _ _ _ _) as [s|s| |s m e]; simpl in *;
    try discriminate; destruct s; simpl in *; congruence.
Qed.

Lemma SFadd_nonpos prec emax x y :
  sf_nonpos x = true -> sf_nonpos y = true ->
  sf_nonpos (SFadd prec emax x y) = true.
Proof.
  destruct x as [sx|sx| |sx mx ex], y as [sy|sy| |sy my ey]; simpl;
    try discriminate; try (destruct sx, sy; simpl; congruence).
  destruct sx, sy; simpl; try discriminate. intros _ _.
  pose proof (binary_round_sign prec emax true
    (fst (shl_align mx ex (Z.min ex ey)) + fst (shl_align my ey (Z.min ex ey)))
    (Z.min ex ey)) as H.
  destruct (binary_round _ _ _ _ _) as [s|s| |s m e]; simpl in *;
    try discriminate; destruct s; simpl in *; congruence.
Qed.

Lemma float_add_nonneg (a b : float) :
  (0 <=? a)%float = true -> (0 <=? b)%float = true ->
  (0 <=? a + b)%float = true.
Proof.
  rewrite !leb_spec, add_spec.
  change (Prim2SF 0) with (S754_zero false).
  rewrite !SFleb_zero_l. apply SFadd_nonneg.
Qed.

Lemma float_add_nonpos (a b : float) :
  (a <=? 0)%float = true -> (b <=? 0)%float = true ->
  (a + b <=? 0)%float = true.
Proof.
  rewrite !leb_spec, add_spec.
  change (Prim2SF 0) with (S754_zero false).
  rewrite !SFleb_zero_r. apply SFadd_nonpos.
Qed.

Lemma float_ltb_leb (a b : float) :
  (a <? b)%float = true -> (a <=? b)%float = true.
Proof.
  rewrite ltb_spec, leb_spec. unfold SFltb, SFleb.
  destruct (SFcompare _ _) as [[]|]; congruence.
Qed.

End Binary64Facts.

#[export] Instance float_SignLaws : SignLaws float.
Proof.
  split; cbn.
  - reflexivity.
  - reflexivity.
  - intros a. apply Binary64Facts.float_ltb_leb.
  - intros a. apply Binary64Facts.float_ltb_leb.
  - apply Binary64Facts.float_add_nonneg.
  - apply Binary64Facts.float_add_nonpos.
Qed.

(** ** The summary calculator *)

Section SummaryCalculator.

Context {A : Type} {NA : Number A} {LA : SignLaws A}.
Implicit Types (df : DataFrame A) (xs : list A).




(** The two masked selections of [compute_summary] are list filters. *)
Lemma select_amount (p : A -> bool) df :
  select df (map p (map Amount df)) =
  List.filter (fun t => p (Amount t)) df.
Proof. rewrite map_map. apply select_map. Qed.


End SummaryCalculator.

(** ** The claims about the filter engine *)

Section FilterClaims.

Context {E : Engine} {A : Type}.
Implicit Types (df : DataFrame A) (t : Transaction A).

(** C9. Filter idempotence: filtering an already-filtered ledger again with
    the same keyword arguments returns the same ledger, and both passes
    report zero removals.  This holds whatever the engine makes of the
    keywords. *)
Theorem filter_transactions_idempotent df kw bad res :
  filter_transactions df kw bad = Some res ->
  filter_transactions (revised res) kw bad =
  Some (mkFiltered (revised res) 0 0).
Proof.
  intros H. apply filter_transactions_Some in H as (f1 & f2 & C1 & C2 & ->).
  cbn [revised]. rewrite filter_transactions_eq, C1, C2. cbn zeta.
  set (out := List.filter (kept f2) (List.filter (kept f1) df)).
  assert (List.filter (kept f1) out = out) as K1.
  { apply filter_all. intros t Ht. apply filter_In in Ht as [Ht _].
    apply filter_In in Ht as [_ Ht]. exact Ht. }
  assert (List.filter (kept f2) out = out) as K2.
  { apply filter_all. intros t Ht. apply filter_In in Ht as [_ Ht]. exact Ht. }
  rewrite K1, K2, Z.sub_diag. reflexivity.
Qed.

(** C10. Frame property of the filter: the revised ledger is a
    subsequence of the input (rows are kept whole and in their original
    order), and the two removal counts and the length of the output add up
    to the length of the input. *)
Theorem filter_transactions_frame df kw bad res :
  filter_transactions df kw bad = Some res ->
  revised res `sublist_of` df /\
  (removed_centrelink res + removed_bad res +
     Z.of_nat (length (revised res)) = Z.of_nat (length df))%Z /\
  (0 <= removed_centrelink res)%Z /\ (0 <= removed_bad res)%Z.
Proof.
  intros H. apply filter_transactions_Some in H as (f1 & f2 & _ & _ & ->).
  cbn [revised removed_centrelink removed_bad].
  pose proof (filter_length_le (kept f1) df).
  pose proof (filter_length_le (kept f2) (List.filter (kept f1) df)).
  split; [ | lia].
  transitivity (List.filter (kept f1) df); apply filter_sublist.
Qed.

End FilterClaims.

Lemma filter_transactions_idempotent_witness :
  filter_transactions scenario_A "Centrelink" ["bad"; "fraud"; "error"] =
    Some (mkFiltered groceries 1 1) /\
  filter_transactions groceries "Centrelink" ["bad"; "fraud"; "error"] =
    Some (mkFiltered groceries 0 0).
Proof.
  split; [vm_compute; reflexivity | ].
  apply (filter_transactions_idempotent scenario_A "Centrelink"
           ["bad"; "fraud"; "error"] (mkFiltered groceries 1 1)).
  vm_compute; reflexivity.
Defined.

Lemma filter_transactions_frame_witness :
  groceries `sublist_of` scenario_A /\
  (1 + 1 + Z.of_nat (length groceries) = Z.of_nat (length scenario_A))%Z /\
  (0 <= 1)%Z /\ (0 <= 1)%Z.
Proof.
  apply (filter_transactions_frame (E := re_fragment) scenario_A
           "Centrelink" ["bad"; "fraud"; "error"] (mkFiltered groceries 1 1)).
  vm_compute; reflexivity.
Defined.

Section FilterDefects.

Context {E : Engine} {F : Faithful E}.

(** C1 (the code departs from the claim). The keyword is compiled as a
    regular expression, so in the keyword [us$] the dollar sign is an
    end-of-text anchor: the row "US$ transfer", whose description contains
    the keyword as a substring, is not removed. *)
Theorem filter_transactions_keeps_dollar_row :
  filter_transactions dollar_ledger "Centrelink" ["us$"] =
    Some (mkFiltered dollar_ledger 0 0) /\
  forallb (mentions_any ["us$"]) dollar_ledger = true.
Proof.
  split; [ | vm_compute; reflexivity].
  apply filter_transactions_fragment. vm_compute; reflexivity.
Qed.

End FilterDefects.

Lemma filter_transactions_keeps_dollar_row_witness :
  filter_transactions (E := re_fragment) dollar_ledger "Centrelink" ["us$"] =
    Some (mkFiltered dollar_ledger 0 0) /\
  forallb (mentions_any ["us$"]) dollar_ledger = true.
Proof.
  exact (filter_transactions_keeps_dollar_row (F := re_fragment_Faithful)).
Defined.

(** ** The empty list of bad keywords *)

Lemma str_split_nonempty sep s : str_split sep s <> [].
Proof.
  destruct s as [|c s]; cbn; [discriminate | ].
  destruct (Ascii.eqb c sep); [discriminate | ].
  destruct (str_split sep s); discriminate.
Qed.

Section EmptyKeywordList.

Context {E : Engine} {F : Faithful E} {A : Type}.
Implicit Types (df : DataFrame A).


End EmptyKeywordList.



(** ** The claims about the income normaliser *)

Section NormalizerClaims.

Context {E : Engine} {F : Faithful E} {A : Type}.
Implicit Types (df : DataFrame A) (income : A).


(** C8. Normaliser idempotence: a second call with the same income returns
    what the first call returned. *)
Theorem add_employment_income_idempotent df income :
  (let? once := add_employment_income df income in
   add_employment_income once income) =
  add_employment_income df income.
Proof.
  rewrite (add_employment_income_eq df).
  destruct (existsb is_income_entry df) eqn:X;
    rewrite add_employment_income_eq.
  - rewrite X. reflexivity.
  - cbn [existsb]. rewrite new_row_is_income_entry. reflexivity.
Qed.


End NormalizerClaims.


Lemma add_employment_income_idempotent_witness :
  add_employment_income (E := re_fragment)
    (new_row 4000%float :: groceries) 4000%float =
  add_employment_income (E := re_fragment) groceries 4000%float.
Proof.
  exact (add_employment_income_idempotent (F := re_fragment_Faithful)
           groceries 4000%float).
Defined.



(** ** Absent descriptions *)

(** The frames of this development have a text column for [Description]
    (see the head of the file): what follows says what [na=False] does
    with a blank cell in such a column, when the calls return.  On a
    column without any text the [.str] accessor raises before a pattern
    is looked at; that case has no counterpart here. *)

Section AbsentDescriptions.

Context {E : Engine} {A : Type}.
Implicit Types (df : DataFrame A) (t : Transaction A).

Lemma str_contains_absent (col : list (option string)) pat mask (i : nat) :
  str_contains col pat = Some mask ->
  col !! i = Some None -> mask !! i = Some false.
Proof.
  unfold str_contains. destruct (compile pat) as [f|]; [ | discriminate].
  intros [= <-] Hi. rewrite list_lookup_fmap. unfold fmap, list_fmap in *.
  rewrite Hi. reflexivity.
Qed.

(** X15. When [filter_transactions] returns, it has kept every row whose
    description is absent, whatever the keywords: the rows without a
    description of the revised ledger are those of the input, and a row
    of the input without a description is a row of the revised ledger. *)
Theorem absent_description_kept df kw bad res :
  filter_transactions df kw bad = Some res ->
  absent_rows (revised res) = absent_rows df /\
  (forall t, In t df -> Description t = None -> In t (revised res)).
Proof.
  intros H.
  apply filter_transactions_Some in H as (f1 & f2 & _ & _ & ->).
  cbn [revised]. split.
  - unfold absent_rows.
    rewrite !filter_implied; [reflexivity | | ];
      intros t; apply is_absent_kept.
  - intros t Ht D.
    assert (is_absent t = true) as X by (unfold is_absent; rewrite D; auto).
    apply filter_In. split; [ | apply is_absent_kept, X].
    apply filter_In. split; [exact Ht | apply is_absent_kept, X].
Qed.

End AbsentDescriptions.

Lemma absent_description_kept_witness :
  absent_rows
    [mkTransaction (Some "2024-02-02") None (-25)%float;
     tx "2024-02-03" "Groceries" (-50)%float] = absent_rows with_blank /\
  (forall t, In t with_blank -> Description t = None ->
     In t [mkTransaction (Some "2024-02-02") None (-25)%float;
           tx "2024-02-03" "Groceries" (-50)%float]).
Proof.
  apply (absent_description_kept (E := re_fragment) with_blank "Centrelink"
           ["bad"; "fraud"; "error"]
           (mkFiltered
              [mkTransaction (Some "2024-02-02") None (-25)%float;
               tx "2024-02-03" "Groceries" (-50)%float] 1 0)).
  vm_compute; reflexivity.
Defined.

(** ** The claims about the summary calculator *)



Set Warnings "-abstract-large-number".

Module CentCheckFacts.
Import Uint63 CentCheck.






End CentCheckFacts.




(** ** The scenarios of the specification, end to end *)

Example scenario_B_run :
  main scenario_B "Centrelink" ["bad"; "fraud"; "error"] 4000%float =
  Some (scenario_B,
        mkSummary 4000 3500 0 3500 (mkRecommended 2000 1200 800))%float.
Proof. vm_compute. reflexivity. Qed.

Example empty_ledger_run :
  main [] "Centrelink" ["bad"; "fraud"; "error"] 0%float =
  Some ([new_row 0], mkSummary 0 0 0 0 (mkRecommended 0 0 0))%float.
Proof. vm_compute. reflexivity. Qed.

(** ** Splitting and stripping the keyword argument *)

Section KeywordArgument.

Lemma concat_cons sep w v ws :
  String.concat sep (w :: v :: ws) =
  (w ++ sep ++ String.concat sep (v :: ws))%string.
Proof. reflexivity. Qed.

(** X1. Splitting loses nothing: joining the items with the separator
    gives the argument back; there is one item more than there are
    separators, so never none; and no item contains the separator. *)
Theorem str_split_round_trip sep s :
  String.concat (String sep EmptyString) (str_split sep s) = s /\
  length (str_split sep s) = S (count_char sep s) /\
  forallb (fun w => negb (has_char sep w)) (str_split sep s) = true.
Proof.
  induction s as [|c s (IH1 & IH2 & IH3)]; [repeat split | ].
  cbn [str_split count_char]. pose proof (str_split_nonempty sep s) as N.
  destruct (str_split sep s) as [|w ws]; [contradiction | ].
  destruct (Ascii.eqb c sep) eqn:X.
  - apply Ascii.eqb_eq in X. subst c. split; [ | split].
    + rewrite concat_cons, IH1. reflexivity.
    + cbn [length] in *. rewrite IH2. reflexivity.
    + cbn [forallb has_char negb andb]. exact IH3.
  - split; [ | split].
    + destruct ws as [|v ws].
      * cbn in *. rewrite IH1. reflexivity.
      * transitivity
          (String c (String.concat (String sep EmptyString) (w :: v :: ws)));
          [reflexivity | rewrite IH1; reflexivity].
    + exact IH2.
    + cbn [forallb has_char] in *. rewrite X. exact IH3.
Qed.

Lemma lstrip_spec s :
  exists l, s = (l ++ lstrip s)%string /\ all_space l = true /\
            starts_with_space (lstrip s) = false.
Proof.
  induction s as [|c s (l & E & A & S)].
  - exists EmptyString. repeat split.
  - cbn [lstrip]. destruct (is_space c) eqn:X.
    + exists (String c l). cbn. rewrite X, A, <- E. repeat split. exact S.
    + exists EmptyString. cbn. rewrite X. repeat split.
Qed.

Lemma rstrip_spec s :
  exists r, s = (rstrip s ++ r)%string /\ all_space r = true /\
            ends_with_space (rstrip s) = false.
Proof.
  induction s as [|c s (r & E & A & N)].
  - exists EmptyString. repeat split.
  - cbn [rstrip]. destruct (rstrip s) as [|d t] eqn:R.
    + cbn in E. subst r. destruct (is_space c) eqn:X.
      * exists (String c s). cbn. rewrite X, A. repeat split.
      * exists s. cbn. rewrite X, A. repeat split.
    + exists r. cbn [append] in *. rewrite <- E. repeat split; assumption.
Qed.

Lemma rstrip_start s :
  starts_with_space s = false -> starts_with_space (rstrip s) = false.
Proof.
  destruct s as [|c s]; cbn; [reflexivity | ]. intros X.
  destruct (rstrip s); [rewrite X | ]; cbn; trivial.
Qed.

Lemma lstrip_fixed s : starts_with_space s = false -> lstrip s = s.
Proof. destruct s as [|c s]; cbn; [ | intros ->]; reflexivity. Qed.

Lemma rstrip_fixed s : ends_with_space s = false -> rstrip s = s.
Proof.
  induction s as [|c s IH]; [reflexivity | ].
  destruct s as [|d t].
  - cbn. intros ->. reflexivity.
  - intros X. change (ends_with_space (String d t) = false) in X.
    cbn [rstrip] in *. rewrite (IH X). reflexivity.
Qed.

(** X2. Stripping takes white space off both ends and nothing else: the
    argument is the stripped text between two runs of white space, the
    stripped text neither starts nor ends with white space, and stripping
    it again changes nothing. *)
Theorem str_strip_spec s :
  (exists l r,
     s = (l ++ str_strip s ++ r)%string /\
     all_space l = true /\ all_space r = true) /\
  starts_with_space (str_strip s) = false /\
  ends_with_space (str_strip s) = false /\
  str_strip (str_strip s) = str_strip s.
Proof.
  unfold str_strip.
  destruct (lstrip_spec s) as (l & El & Al & Sl).
  destruct (rstrip_spec (lstrip s)) as (r & Er & Ar & Nr).
  pose proof (rstrip_start _ Sl) as Sr.
  split; [ | split; [exact Sr | split; [exact Nr | ]]].
  - exists l, r. rewrite <- Er. auto.
  - rewrite (lstrip_fixed _ Sr). apply rstrip_fixed, Nr.
Qed.

End KeywordArgument.

(** ** More on the filter engine *)

Section FilterComposition.

Context {E : Engine} {A : Type}.
Implicit Types (df : DataFrame A) (t : Transaction A).

Lemma filter_filter_and {T : Type} (p q : T -> bool) (l : list T) :
  List.filter q (List.filter p l) = List.filter (fun x => p x && q x) l.
Proof.
  induction l as [|x l IH]; cbn; [reflexivity | ].
  destruct (p x); cbn; [destruct (q x) | ]; rewrite IH; reflexivity.
Qed.

Lemma filter_length_complement {T : Type} (p : T -> bool) (l : list T) :
  (length (List.filter p l) + length (List.filter (fun x => negb (p x)) l)
   = length l)%nat.
Proof.
  induction l as [|x l IH]; cbn; [reflexivity | ].
  destruct (p x); cbn; lia.
Qed.

(** The closed form with the removed rows counted directly. *)
Lemma filter_transactions_counted df kw bad f1 f2 :
  compile kw = Some f1 ->
  compile (String.concat "|" bad) = Some f2 ->
  filter_transactions df kw bad =
  Some (mkFiltered
          (List.filter (fun t => kept f1 t && kept f2 t) df)
          (Z.of_nat (length (List.filter (hit f1) df)))
          (Z.of_nat (length
             (List.filter (fun t => kept f1 t && hit f2 t) df)))).
Proof.
  intros C1 C2. rewrite filter_transactions_eq, C1, C2. cbn zeta.
  rewrite !filter_filter_and.
  pose proof (filter_length_complement (hit f1) df) as L1.
  pose proof (filter_length_complement (hit f2)
                (List.filter (kept f1) df)) as L2.
  rewrite !filter_filter_and in L2. unfold kept in *.
  f_equal. f_equal; lia.
Qed.

(** X3. The two counts are exact and no row is counted twice: the first
    is the number of rows the Centrelink pattern finds, the second the
    number of rows the joined pattern finds among those the first pass
    kept; the revised ledger is the rows that neither pattern finds. *)
Theorem filter_transactions_counts df kw bad res :
  filter_transactions df kw bad = Some res ->
  exists f1 f2,
    compile kw = Some f1 /\
    compile (String.concat "|" bad) = Some f2 /\
    revised res = List.filter (fun t => kept f1 t && kept f2 t) df /\
    removed_centrelink res =
      Z.of_nat (length (List.filter (hit f1) df)) /\
    removed_bad res =
      Z.of_nat (length (List.filter (fun t => kept f1 t && hit f2 t) df)).
Proof.
  intros H. pose proof H as K.
  apply filter_transactions_Some in K as (f1 & f2 & C1 & C2 & _).
  rewrite (filter_transactions_counted df kw bad f1 f2 C1 C2) in H.
  injection H as <-. exists f1, f2. cbn. auto.
Qed.

(** X4. Rows are judged one by one: when the filter returns for two
    ledgers and for the two put end to end, the result for the whole is
    the two results put end to end, and the counts add up. *)
Theorem filter_transactions_app df1 df2 kw bad r1 r2 r :
  filter_transactions df1 kw bad = Some r1 ->
  filter_transactions df2 kw bad = Some r2 ->
  filter_transactions (df1 ++ df2) kw bad = Some r ->
  r = mkFiltered (revised r1 ++ revised r2)
        (removed_centrelink r1 + removed_centrelink r2)
        (removed_bad r1 + removed_bad r2).
Proof.
  intros H1 H2 H. pose proof H as K.
  apply filter_transactions_Some in K as (f1 & f2 & C1 & C2 & _).
  rewrite (filter_transactions_counted _ kw bad f1 f2 C1 C2) in H1.
  rewrite (filter_transactions_counted _ kw bad f1 f2 C1 C2) in H2.
  rewrite (filter_transactions_counted _ kw bad f1 f2 C1 C2) in H.
  injection H1 as <-. injection H2 as <-. injection H as <-.
  cbn. rewrite !List.filter_app, !length_app, !Nat2Z.inj_add. reflexivity.
Qed.

(** X5. The order of the two passes does not matter for what is left:
    with a single bad keyword, exchanging it with the Centrelink keyword
    gives the same revised ledger and the same number of removed rows
    in all (how they split between the two counts may change). *)
Theorem filter_transactions_swap df k1 k2 :
  option_map
    (fun r => (revised r, (removed_centrelink r + removed_bad r)%Z))
    (filter_transactions df k1 [k2]) =
  option_map
    (fun r => (revised r, (removed_centrelink r + removed_bad r)%Z))
    (filter_transactions df k2 [k1]).
Proof.
  rewrite !filter_transactions_eq.
  change (String.concat "|" [k1]) with k1.
  change (String.concat "|" [k2]) with k2.
  destruct (compile k1) as [f1|], (compile k2) as [f2|]; cbn;
    try reflexivity.
  pose proof (filter_length_le (kept f1) df).
  pose proof (filter_length_le (kept f2) df).
  pose proof (filter_length_le (kept f2) (List.filter (kept f1) df)).
  rewrite (filter_filter_and (kept f2) (kept f1)) in *.
  rewrite (filter_filter_and (kept f1) (kept f2)) in *.
  rewrite (List.filter_ext (fun t => kept f2 t && kept f1 t)
             (fun t => kept f1 t && kept f2 t))
    by (intros t; apply andb_comm).
  f_equal. f_equal. lia.
Qed.

End FilterComposition.

Lemma filter_transactions_app_witness :
  mkFiltered
    [tx "2024-01-03" "Groceries" (-50)%float;
     mkTransaction (Some "2024-02-02") None (-25)%float;
     tx "2024-02-03" "Groceries" (-50)%float] 2 1 =
  mkFiltered
    (groceries ++
     [mkTransaction (Some "2024-02-02") None (-25)%float;
      tx "2024-02-03" "Groceries" (-50)%float]) (1 + 1) (1 + 0).
Proof.
  apply (filter_transactions_app (E := re_fragment) scenario_A with_blank
           "Centrelink" ["bad"; "fraud"; "error"]
           (mkFiltered groceries 1 1)
           (mkFiltered
              [mkTransaction (Some "2024-02-02") None (-25)%float;
               tx "2024-02-03" "Groceries" (-50)%float] 1 0));
    vm_compute; reflexivity.
Defined.

Lemma filter_transactions_counts_witness :
  exists f1 f2,
    compile "Centrelink" = Some f1 /\
    compile (String.concat "|" ["bad"; "fraud"; "error"]) = Some f2 /\
    groceries = List.filter (fun t => kept f1 t && kept f2 t) scenario_A /\
    1%Z = Z.of_nat (length (List.filter (hit f1) scenario_A)) /\
    1%Z = Z.of_nat (length
            (List.filter (fun t => kept f1 t && hit f2 t) scenario_A)).
Proof.
  apply (filter_transactions_counts scenario_A "Centrelink"
           ["bad"; "fraud"; "error"] (mkFiltered groceries 1 1)).
  vm_compute; reflexivity.
Defined.

(** ** Plain keywords, exactly *)

Section PlainExact.

Context {E : Engine} {F : Faithful E} {A : Type}.
Implicit Types (df : DataFrame A) (t : Transaction A).

Lemma hit_join_eq bad found t :
  bad <> [] ->
  (forall s, found s =
     match bad with
     | [] => true
     | _ :: _ => existsb (fun kw => ci_substring kw s) bad
     end) ->
  hit found t = mentions_any bad t.
Proof.
  intros N Hf. destruct bad as [|kw bad]; [contradiction | ].
  unfold hit. destruct (Description t) as [d|] eqn:D.
  - rewrite (mentions_any_Some _ _ _ D), Hf. reflexivity.
  - rewrite (mentions_any_None _ _ D). reflexivity.
Qed.

Lemma filter_transactions_plain_eq df kw bad :
  plain kw = true -> forallb plain bad = true -> bad <> [] ->
  filter_transactions df kw bad =
  Some (mkFiltered
          (List.filter
             (fun t => negb (mentions kw t) && negb (mentions_any bad t)) df)
          (Z.of_nat (length (List.filter (mentions kw) df)))
          (Z.of_nat (length
             (List.filter
                (fun t => negb (mentions kw t) && mentions_any bad t) df)))).
Proof.
  intros Hk Hb N.
  destruct (compile_plain kw Hk) as (f1 & C1 & H1).
  destruct (compile_join bad Hb) as (f2 & C2 & H2).
  rewrite (filter_transactions_counted df kw bad f1 f2 C1 C2).
  assert (forall t : Transaction A, hit f1 t = mentions kw t) as K1
    by (intros t; apply hit_plain, H1).
  assert (forall t : Transaction A, hit f2 t = mentions_any bad t) as K2
    by (intros t; apply hit_join_eq; assumption).
  rewrite (List.filter_ext (hit f1) (mentions kw) K1).
  rewrite (List.filter_ext (fun t => kept f1 t && kept f2 t)
             (fun t => negb (mentions kw t) && negb (mentions_any bad t)))
    by (intros t; unfold kept; rewrite K1, K2; reflexivity).
  rewrite (List.filter_ext (fun t => kept f1 t && hit f2 t)
             (fun t => negb (mentions kw t) && mentions_any bad t))
    by (intros t; unfold kept; rewrite K1, K2; reflexivity).
  reflexivity.
Qed.

(** X6. When no keyword has a character special to [re] and there is at
    least one bad keyword, a call that returns has done exactly what the
    comments of the filter say: the revised ledger is the rows that
    mention no keyword, the first count is the number of rows that
    mention the Centrelink keyword, the second the number of the other
    rows that mention a bad keyword. *)
Theorem filter_transactions_exact df kw bad res :
  filter_transactions df kw bad = Some res ->
  plain kw = true -> forallb plain bad = true -> bad <> [] ->
  res =
  mkFiltered
    (List.filter
       (fun t => negb (mentions kw t) && negb (mentions_any bad t)) df)
    (Z.of_nat (length (List.filter (mentions kw) df)))
    (Z.of_nat (length
       (List.filter
          (fun t => negb (mentions kw t) && mentions_any bad t) df))).
Proof.
  intros H Hk Hb N.
  rewrite (filter_transactions_plain_eq df kw bad Hk Hb N) in H.
  injection H as <-. reflexivity.
Qed.

Lemma mentions_any_app bad1 bad2 t :
  mentions_any (bad1 ++ bad2) t = mentions_any bad1 t || mentions_any bad2 t.
Proof. unfold mentions_any. apply existsb_app. Qed.

Lemma filter_length_or {T : Type} (p a b : T -> bool) (l : list T) :
  length (List.filter (fun x => p x && (a x || b x)) l) =
  (length (List.filter (fun x => p x && a x) l) +
   length (List.filter (fun x => (p x && negb (a x)) && (p x && b x)) l))%nat.
Proof.
  induction l as [|x l IH]; cbn; [reflexivity | ].
  destruct (p x), (a x), (b x); cbn; lia.
Qed.

Lemma filter_none {T : Type} (p : T -> bool) (l : list T) :
  (forall x, In x l -> p x = false) -> List.filter p l = [].
Proof.
  induction l as [|x l IH]; cbn; intros H; [reflexivity | ].
  rewrite (H x) by auto. apply IH. auto.
Qed.

(** X13. Bad keywords can be applied in instalments: for plain keywords,
    one run with the list [bad1 ++ bad2] leaves what a run with [bad1]
    followed by a run with [bad2] on its result leaves, and removes as
    many rows; the second run finds no Centrelink row any more. *)
Theorem filter_transactions_keywords_app df kw bad1 bad2 :
  plain kw = true ->
  forallb plain bad1 = true -> forallb plain bad2 = true ->
  bad1 <> [] -> bad2 <> [] ->
  filter_transactions df kw (bad1 ++ bad2) =
  let? r1 := filter_transactions df kw bad1 in
  let? r2 := filter_transactions (revised r1) kw bad2 in
  Some (mkFiltered (revised r2)
          (removed_centrelink r1 + removed_centrelink r2)
          (removed_bad r1 + removed_bad r2)).
Proof.
  intros Hk H1 H2 N1 N2.
  assert (forallb plain (bad1 ++ bad2) = true) as H12
    by (rewrite forallb_app, H1, H2; reflexivity).
  assert (bad1 ++ bad2 <> []) as N12
    by (destruct bad1; [contradiction | discriminate]).
  rewrite (filter_transactions_plain_eq df kw _ Hk H12 N12).
  rewrite (filter_transactions_plain_eq df kw _ Hk H1 N1).
  cbn [revised removed_centrelink removed_bad].
  rewrite (filter_transactions_plain_eq _ kw _ Hk H2 N2).
  cbn [revised removed_centrelink removed_bad].
  rewrite !filter_filter_and.
  rewrite (filter_none (fun t => (negb (mentions kw t) &&
                                  negb (mentions_any bad1 t)) &&
                                 mentions kw t)).
  2:{ intros t _.
      destruct (mentions kw t), (mentions_any bad1 t); reflexivity. }
  f_equal. f_equal.
  - apply List.filter_ext. intros t. rewrite mentions_any_app.
    destruct (mentions kw t), (mentions_any bad1 t), (mentions_any bad2 t);
      reflexivity.
  - cbn [length]. lia.
  - rewrite <- Nat2Z.inj_add. f_equal.
    rewrite (List.filter_ext _
               (fun t => negb (mentions kw t) &&
                         (mentions_any bad1 t || mentions_any bad2 t)))
      by (intros t; rewrite mentions_any_app; reflexivity).
    rewrite (filter_length_or (fun t => negb (mentions kw t))).
    reflexivity.
Qed.

End PlainExact.

Lemma filter_transactions_exact_witness :
  mkFiltered groceries 1 1 =
  mkFiltered
    (List.filter
       (fun t => negb (mentions "Centrelink" t) &&
                 negb (mentions_any ["bad"; "fraud"; "error"] t))
       scenario_A)
    (Z.of_nat (length (List.filter (mentions "Centrelink") scenario_A)))
    (Z.of_nat (length
       (List.filter
          (fun t => negb (mentions "Centrelink" t) &&
                    mentions_any ["bad"; "fraud"; "error"] t)
          scenario_A))).
Proof.
  apply (filter_transactions_exact (F := re_fragment_Faithful)
           scenario_A "Centrelink" ["bad"; "fraud"; "error"]
           (mkFiltered groceries 1 1)).
  - vm_compute; reflexivity.
  - reflexivity.
  - reflexivity.
  - discriminate.
Defined.

(** ** The whole run *)

Section WholeRun.

Context {E : Engine} {F : Faithful E} {A : Type}.
Context {N : Number A} {S : Summation A} {L : Literals A}.
Implicit Types (df : DataFrame A) (t : Transaction A) (income : A).

Lemma main_eq df kw bad income :
  main df kw bad income =
  let? res := filter_transactions df kw bad in
  let out := if existsb is_income_entry (revised res) then revised res
             else new_row income :: revised res in
  Some (out, compute_summary out income).
Proof.
  unfold main. destruct (filter_transactions df kw bad) as [res|];
    [ | reflexivity].
  rewrite add_employment_income_eq. reflexivity.
Qed.


Lemma filter_twice_fixed (p q : Transaction A -> bool) df :
  List.filter q (List.filter p (List.filter q (List.filter p df))) =
  List.filter q (List.filter p df).
Proof.
  rewrite (filter_all p (List.filter q (List.filter p df))).
  - apply filter_all. intros t Ht. apply filter_In in Ht as [_ Ht]. exact Ht.
  - intros t Ht. apply filter_In in Ht as [Ht _].
    apply filter_In in Ht as [_ Ht]. exact Ht.
Qed.

(** X8. Running the tool on its own output with the same arguments
    changes nothing: same final ledger, same summary. *)
Theorem main_idempotent df kw bad income out s :
  main df kw bad income = Some (out, s) ->
  main out kw bad income = Some (out, s).
Proof.
  rewrite main_eq.
  destruct (filter_transactions df kw bad) as [res|] eqn:H; [ | discriminate].
  cbn zeta. intros [= <- <-].
  apply filter_transactions_Some in H as (f1 & f2 & C1 & C2 & ->).
  cbn [revised]. set (R := List.filter (kept f2) (List.filter (kept f1) df)).
  assert (List.filter (kept f2) (List.filter (kept f1) R) = R) as FR
    by apply filter_twice_fixed.
  rewrite main_eq, filter_transactions_eq, C1, C2. cbn zeta. cbn [revised].
  destruct (existsb is_income_entry R) eqn:Y.
  - rewrite FR, Y. reflexivity.
  - cbn [List.filter].
    destruct (kept f1 (new_row income)); cbn [List.filter];
      [destruct (kept f2 (new_row income)) | ]; rewrite FR.
    + cbn [existsb]. rewrite new_row_is_income_entry. reflexivity.
    + rewrite Y. reflexivity.
    + rewrite Y. reflexivity.
Qed.

End WholeRun.


Lemma main_idempotent_witness :
  main (E := re_fragment) (new_row 4000%float :: groceries) "Centrelink"
    ["bad"; "fraud"; "error"] 4000%float =
  Some (new_row 4000%float :: groceries,
        compute_summary (new_row 4000%float :: groceries) 4000%float).
Proof.
  apply (main_idempotent (F := re_fragment_Faithful) scenario_A).
  vm_compute; reflexivity.
Defined.

(** ** From the command line to the filter *)

Section CommandLine.

Context {E : Engine} {F : Faithful E} {A : Type}.
Context {N : Number A} {S : Summation A} {L : Literals A}.
Implicit Types (df : DataFrame A) (t : Transaction A).













End CommandLine.



(** ** Rows that count for nothing in the summary *)

(** X11. A row whose amount is neither above nor below zero -- a zero, a
    missing amount -- counts for nothing: dropping all such rows leaves
    the whole summary as it is. *)
Theorem compute_summary_ignores_neutral {A I : Type} {NA : Number A}
    {SA : Summation A} {NI : Number I} {LI : Literals I}
    (df : DataFrame A) (full_income : I) :
  compute_summary
    (List.filter
       (fun t => ltb zero (Amount t) || ltb (Amount t) zero) df)
    full_income =
  compute_summary df full_income.
Proof.
  unfold compute_summary. rewrite !select_amount.
  rewrite !filter_implied; [reflexivity | | ];
    intros t H; rewrite H; [apply orb_true_r | reflexivity].
Qed.

(** In binary64 a NaN and both zeros are such amounts. *)
Example neutral_amounts :
  map (fun a => (0 <? a)%float || (a <? 0)%float)
    [0%float; (-0)%float; nan; 1%float; (-1)%float] =
  [false; false; false; true; true].
Proof. vm_compute; reflexivity. Qed.

(** ** The loader *)

Section Loader.

Context {R : Type}.

Lemma existsb_eqb_In col (cols : list string) :
  existsb (String.eqb col) cols = true <-> In col cols.
Proof.
  rewrite existsb_exists. split.
  - intros (c & Hc & X). apply String.eqb_eq in X. subst c. exact Hc.
  - intros H. exists col. split; [exact H | apply String.eqb_refl].
Qed.

Lemma first_missing_spec required cols :
  match first_missing required cols with
  | None => forall col, In col required -> In col cols
  | Some col =>
      exists before after,
        required = before ++ col :: after /\
        (forall c, In c before -> In c cols) /\
        ~ In col cols
  end.
Proof.
  induction required as [|c required IH]; cbn [first_missing].
  - intros col [].
  - destruct (existsb (String.eqb c) cols) eqn:X.
    + apply existsb_eqb_In in X.
      destruct (first_missing required cols) as [col|].
      * destruct IH as (before & after & -> & B & M).
        exists (c :: before), after. split; [reflexivity | ].
        split; [ | exact M]. intros c' [<-|H]; auto.
      * intros col [<-|H]; auto.
    + exists [], required. split; [reflexivity | ].
      split; [intros c' [] | ].
      intros H. apply existsb_eqb_In in H. congruence.
Qed.

(** X12. [load_transactions] returns the frame it read, untouched,
    exactly when reading succeeded and the frame has the columns Date,
    Description and Amount (by their exact names; more columns and any
    order are fine).  In every other case the program ends with status 1
    after one log line: the read error, or the first required column, in
    that order, that the frame lacks. *)
Theorem load_transactions_outcome input_path
    (read_csv : string + CsvFrame R) :
  match load_transactions input_path read_csv with
  | Returned df =>
      read_csv = inr df /\
      In "Date" (columns df) /\ In "Description" (columns df) /\
      In "Amount" (columns df)
  | Exited status log =>
      status = 1%Z /\
      match read_csv with
      | inl e =>
          log = [("Failed to read CSV file " ++ input_path ++ ": " ++ e)
                   %string]
      | inr df =>
          exists col before after,
            log = [("Missing required column: " ++ col)%string] /\
            ["Date"; "Description"; "Amount"] = before ++ col :: after /\
            (forall c, In c before -> In c (columns df)) /\
            ~ In col (columns df)
      end
  end.
Proof.
  unfold load_transactions. destruct read_csv as [e|df].
  - split; reflexivity.
  - pose proof (first_missing_spec required_columns (columns df)) as S.
    destruct (first_missing required_columns (columns df)) as [col|].
    + split; [reflexivity | ].
      destruct S as (before & after & Q & B & M).
      exists col, before, after. auto.
    + split; [reflexivity | ].
      repeat split; apply S; cbn; auto.
Qed.

End Loader.

Example load_missing_date :
  load_transactions (R := Transaction float) "in.csv"
    (inr (mkCsvFrame ["Amount"; "date"; "Notes"] [])) =
  Exited 1 ["Missing required column: Date"].
Proof. reflexivity. Qed.

Lemma filter_transactions_keywords_app_witness :
  filter_transactions (E := re_fragment) scenario_A "Centrelink"
    (["bad"] ++ ["fraud"; "error"]) =
  Some (mkFiltered groceries (1 + 0) (0 + 1)).
Proof.
  refine (eq_trans
            (filter_transactions_keywords_app (F := re_fragment_Faithful)
               scenario_A "Centrelink" ["bad"] ["fraud"; "error"]
               _ _ _ _ _) _).
  - reflexivity.
  - reflexivity.
  - reflexivity.
  - discriminate.
  - discriminate.
  - vm_compute; reflexivity.
Defined.

Lemma filter_transactions_no_bad_keywords_witness :
  revised (mkFiltered (@nil (Transaction float)) 1 2) =
  absent_rows scenario_A.
Proof.
  apply (filter_transactions_no_bad_keywords (F := re_fragment_Faithful)
           scenario_A "Centrelink" (mkFiltered [] 1 2)).
  vm_compute; reflexivity.
Defined.
